(** * Telbook contact directory: record store, query builder, facets, migration

    A shallow embedding of [app/models.py], [app/crud.py] and
    [migrate_contacts.py], and the properties of the repository engine that
    the specification states about them.

    Conventions of the embedding.
    - A Python [str] is a [string]; every character stands for one code point
      below 256.
    - A Python [dict] with string keys is a [gmap string _]; a Python [set]
      of strings is a [gset string].
    - A MongoDB collection is the list of its documents in natural order.
      A document is its primary key [_id] (always a string here: both writers
      of the repository, [create_contact] and the migration, store strings)
      together with the map of its other fields.
    - [datetime.utcnow()] is an explicit argument ([now], or a [clock] giving
      the reading at the i-th call of a run); a timestamp is an integer.
    - An exception is a constructor of the result type.
    - The pydantic re-validation [Contact(id=..., **fields)] of a document
      that is returned to the caller is not modelled: operations return the
      stored document itself. *)

From Stdlib Require Import ZArith Ascii DecimalString.
From stdpp Require Import base option gmap strings list sorting.

#[local] Set Warnings "-register-all".

(** ** Values held by JSON records and by stored documents *)

Inductive value :=
  | VNull
  | VBool (b : bool)
  | VInt (n : Z)
  | VFloat (repr : string)   (* a float, carried by its Python repr *)
  | VStr (s : string)
  | VArr (l : list value)
  | VObj (items : list (string * value))
  | VDate (t : Z).           (* a datetime *)

Definition value_eq_dec : ∀ v w : value, {v = w} + {v ≠ w}.
Proof.
  fix IH 1. intros v w. decide equality.
  - apply bool_dec.
  - apply Z.eq_dec.
  - apply String.string_dec.
  - apply String.string_dec.
  - apply (List.list_eq_dec IH).
  - apply List.list_eq_dec. intros [k1 v1] [k2 v2].
    decide equality. apply String.string_dec.
  - apply Z.eq_dec.
Defined.

#[global] Instance value_eqdec : EqDecision value := value_eq_dec.

(** ** The Python built-ins the code relies on *)

Module Py.

(** [str.isspace] on one character (code points below 256). *)
Definition isspace (a : ascii) : bool :=
  match N_of_ascii a with
  | 9 | 10 | 11 | 12 | 13 | 28 | 29 | 30 | 31 | 32 | 133 | 160 => true
  | _ => false
  end%N.

Fixpoint lstrip (s : string) : string :=
  match s with
  | "" => ""
  | String a s' => if isspace a then lstrip s' else s
  end.

Fixpoint rstrip (s : string) : string :=
  match s with
  | "" => ""
  | String a s' =>
      match rstrip s' with
      | "" => if isspace a then "" else String a ""
      | r => String a r
      end
  end.

(** [s.strip()] *)
Definition strip (s : string) : string := rstrip (lstrip s).

(** [s.split(sep)] for a one-character separator: never the empty list. *)
Fixpoint split (sep : ascii) (s : string) : list string :=
  match s with
  | "" => [""]
  | String a s' =>
      if Ascii.eqb a sep then "" :: split sep s'
      else match split sep s' with
           | w :: ws => String a w :: ws
           | [] => [String a ""]
           end
  end.

Definition digit (a : ascii) : option Z :=
  let n := Z.of_N (N_of_ascii a) in
  if (48 <=? n)%Z && (n <=? 57)%Z then Some (n - 48)%Z else None.

(** Digits with single underscores between them, at least one digit. *)
Fixpoint digits (acc : Z) (after_digit : bool) (s : string) : option Z :=
  match s with
  | "" => if after_digit then Some acc else None
  | String a s' =>
      match digit a with
      | Some d => digits (10 * acc + d) true s'
      | None =>
          if Ascii.eqb a "_" && after_digit then digits acc false s'
          else None
      end
  end%Z.

(** The white space [int] skips at both ends: the ASCII white space, and
    the spaces above 127 (which the conversion turns into blanks first);
    the separators 28..31 are white space for [strip] but not here. *)
Definition int_space (a : ascii) : bool :=
  match N_of_ascii a with
  | 9 | 10 | 11 | 12 | 13 | 32 | 133 | 160 => true
  | _ => false
  end%N.

Fixpoint int_lstrip (s : string) : string :=
  match s with
  | "" => ""
  | String a s' => if int_space a then int_lstrip s' else s
  end.

Fixpoint int_rstrip (s : string) : string :=
  match s with
  | "" => ""
  | String a s' =>
      match int_rstrip s' with
      | "" => if int_space a then "" else String a ""
      | r => String a r
      end
  end.

(** [int(s)] for a string: [None] is [ValueError]. *)
Definition int (s : string) : option Z :=
  let t := int_rstrip (int_lstrip s) in
  match t with
  | String a r =>
      if Ascii.eqb a "+" then digits 0 false r
      else if Ascii.eqb a "-" then Z.opp <$> digits 0 false r
      else digits 0 false t
  | "" => None
  end.

(** The decimal numeral of a natural number. *)
Definition decimal (n : Z) : string :=
  NilZero.string_of_uint (N.to_uint (Z.to_N n)).

Fixpoint zeros (k : nat) : string :=
  match k with O => "" | S k' => String "0" (zeros k') end.

Definition zfill (width : nat) (s : string) : string :=
  zeros (width - String.length s) +:+ s.

(** [f"{n:04d}"]: sign-aware zero padding to a minimum width of four. *)
Definition format_04d (n : Z) : string :=
  if (n <? 0)%Z then "-" +:+ zfill 3 (decimal (- n))
  else zfill 4 (decimal n).

(** Truth value of an object in a condition. *)
Definition truthy (v : value) : bool :=
  match v with
  | VNull => false
  | VBool b => b
  | VInt n => negb (n =? 0)%Z
  | VFloat r => negb (bool_decide (r = "0.0") || bool_decide (r = "-0.0"))
  | VStr s => negb (bool_decide (s = ""))
  | VArr l => negb (bool_decide (l = []))
  | VObj kv => negb (bool_decide (kv = []))
  | VDate _ => true
  end.

(** Truth value of an [Optional[str]] attribute. *)
Definition truthy_str (o : option string) : bool :=
  match o with Some s => negb (bool_decide (s = "")) | None => false end.

(** [sorted(list(s))] for a set of strings: ascending code-point order. *)
Definition sorted (s : gset string) : list string :=
  merge_sort String.le (elements s).

End Py.

(** ** Documents, collections and the MongoDB operations the code calls *)

Record document := Document { _id : string; fields : gmap string value }.

#[global] Instance document_eqdec : EqDecision document.
Proof. solve_decision. Defined.

Abbreviation collection := (list document).

Module Mongo.

(** *** Regular expressions: the fragment of the syntax that is modelled.
    A pattern is a sequence of literal characters and dots; a pattern with
    any other metacharacter is outside the fragment ([compile] gives
    [None]).  Matching is unanchored and, as every query of the code asks
    with ["$options": "i"], caseless on the ASCII letters. *)

Inductive token := Lit (a : ascii) | AnyChar.

Definition metachar (a : ascii) : bool :=
  bool_decide (a ∈ String.list_ascii_of_string "\^$.|?*+()[]{}").

Fixpoint compile (pat : string) : option (list token) :=
  match pat with
  | "" => Some []
  | String a p =>
      if Ascii.eqb a "." then (AnyChar ::.) <$> compile p
      else if metachar a then None
      else (Lit a ::.) <$> compile p
  end.

Definition lower (a : ascii) : ascii :=
  let n := N_of_ascii a in
  if (65 <=? n)%N && (n <=? 90)%N then ascii_of_N (n + 32) else a.

Definition token_matches (t : token) (c : ascii) : bool :=
  match t with
  | Lit a => Ascii.eqb (lower a) (lower c)
  | AnyChar => negb (Ascii.eqb c "010")
  end.

Fixpoint match_here (r : list token) (s : string) : bool :=
  match r, s with
  | [], _ => true
  | t :: r', String c s' => token_matches t c && match_here r' s'
  | _ :: _, "" => false
  end.

Fixpoint search (r : list token) (s : string) : bool :=
  match_here r s ||
  match s with "" => false | String _ s' => search r s' end.

(** *** Queries *)

Inductive cond :=
  | Equals (v : value)       (* {field: v} *)
  | NotEquals (v : value)    (* {field: {"$ne": v}} *)
  | Regex (pat : string).    (* {field: {"$regex": pat, "$options": "i"}} *)

Inductive clause :=
  | Field (c : cond)
  | Or (alts : list (string * cond)).   (* under the key "$or" *)

Abbreviation query := (gmap string clause).

Definition get_field (d : document) (k : string) : option value :=
  if bool_decide (k = "_id") then Some (VStr (_id d)) else fields d !! k.

(** Equality on a field: the value itself, or an array holding it; a
    missing field equals null. *)
Definition equals (o : option value) (v : value) : bool :=
  match o with
  | None => bool_decide (v = VNull)
  | Some w =>
      bool_decide (w = v) ||
      match w with VArr l => bool_decide (v ∈ l) | _ => false end
  end.

(** A regular expression on a field: a string, or an array with a string
    element, that matches. *)
Definition regex_on (r : list token) (o : option value) : bool :=
  match o with
  | Some (VStr s) => search r s
  | Some (VArr l) =>
      existsb (λ e, match e with VStr s => search r s | _ => false end) l
  | _ => false
  end.

Definition holds (c : cond) (o : option value) : bool :=
  match c with
  | Equals v => equals o v
  | NotEquals v => negb (equals o v)
  | Regex pat =>
      match compile pat with Some r => regex_on r o | None => false end
  end.

Definition clause_holds (d : document) (k : string) (cl : clause) : bool :=
  match cl with
  | Field c => holds c (get_field d k)
  | Or alts => existsb (λ '(f, c), holds c (get_field d f)) alts
  end.

Definition matches (q : query) (d : document) : bool :=
  bool_decide (map_Forall (λ k cl, clause_holds d k cl = true) q).

Definition cond_supported (c : cond) : bool :=
  match c with Regex pat => bool_decide (is_Some (compile pat)) | _ => true end.

Definition clause_supported (cl : clause) : bool :=
  match cl with
  | Field c => cond_supported c
  | Or alts => forallb (λ '(_, c), cond_supported c) alts
  end.

(** Every pattern of the query lies in the modelled fragment. *)
Definition supported (q : query) : bool :=
  bool_decide (map_Forall (λ _ cl, clause_supported cl = true) q).

Definition find_one (q : query) (c : collection) : option document :=
  List.find (matches q) c.

Definition count_documents (q : query) (c : collection) : nat :=
  length (List.filter (matches q) c).

(** [find_one({"_id": id})] *)
Definition find_by_id (id : string) (c : collection) : option document :=
  List.find (λ d, bool_decide (_id d = id)) c.

(** [find_one(sort=[("_id", -1)])]: the document whose key is greatest in
    the order of strings. *)
Fixpoint find_last_id (c : collection) : option document :=
  match c with
  | [] => None
  | d :: c' =>
      match find_last_id c' with
      | Some m => if String.ltb (_id d) (_id m) then Some m else Some d
      | None => Some d
      end
  end.

(** *** Sorting.  The order of the values of a sort field: null (or no
    field) first, then numbers, then strings; strings by code point.  The
    fields the code sorts by hold a string or null in every document the
    repository writes; values of other types are ordered by their type
    only. *)

Definition rank (o : option value) : Z :=
  match o with
  | None | Some VNull => 1
  | Some (VInt _) | Some (VFloat _) => 2
  | Some (VStr _) => 3
  | Some (VObj _) => 4
  | Some (VArr _) => 5
  | Some (VBool _) => 8
  | Some (VDate _) => 9
  end.

Definition key_compare (a b : option value) : comparison :=
  match a, b with
  | Some (VStr s), Some (VStr t) => String.compare s t
  | Some (VInt m), Some (VInt n) => Z.compare m n
  | Some (VBool x), Some (VBool y) => Bool.compare x y
  | Some (VDate m), Some (VDate n) => Z.compare m n
  | _, _ => Z.compare (rank a) (rank b)
  end.

Inductive direction := Ascending | Descending.   (* 1 and -1 *)

Definition before (field : string) (dir : direction) (x y : document) : bool :=
  let c := match dir with
           | Ascending => key_compare (get_field x field) (get_field y field)
           | Descending => key_compare (get_field y field) (get_field x field)
           end in
  match c with Gt => false | _ => true end.

Fixpoint insert_sorted (le : document → document → bool) (x : document)
    (l : collection) : collection :=
  match l with
  | [] => [x]
  | y :: l' => if le x y then x :: l else y :: insert_sorted le x l'
  end.

(** Documents with equal keys stay in natural order. *)
Definition sort (field : string) (dir : direction) (l : collection) : collection :=
  foldr (insert_sorted (before field dir)) [] l.

(** [find(q).sort(field, dir).skip(skip).limit(limit)] read with
    [to_list(length=limit)]. *)
Definition find_page (q : query) (field : string) (dir : direction)
    (skip limit : nat) (c : collection) : collection :=
  take limit (drop skip (sort field dir (List.filter (matches q) c))).

(** *** Writes *)

(** [insert_one]: [None] is [DuplicateKeyError]. *)
Definition insert_one (d : document) (c : collection) : option collection :=
  match find_by_id (_id d) c with
  | Some _ => None
  | None => Some (c ++ [d])
  end.

(** [update_one({"_id": id}, {"$set": upd})] *)
Fixpoint update_one_set (id : string) (upd : gmap string value)
    (c : collection) : collection :=
  match c with
  | [] => []
  | d :: c' =>
      if bool_decide (_id d = id)
      then Document (_id d) (upd ∪ fields d) :: c'
      else d :: update_one_set id upd c'
  end.

(** [delete_one({"_id": id})], with the number of documents deleted. *)
Fixpoint delete_one (id : string) (c : collection) : nat * collection :=
  match c with
  | [] => (0, [])
  | d :: c' =>
      if bool_decide (_id d = id) then (1, c')
      else let '(n, c'') := delete_one id c' in (n, d :: c'')
  end.

End Mongo.

(** ** [app/models.py] *)

Definition opt_str (o : option string) : value := from_option VStr VNull o.
Definition str_list (l : list string) : value := VArr (VStr <$> l).

Module ContactCreate.

Record t := Build {
  name : string;
  extension : option string;
  company : option string;
  department : option string;
  designation : option string;
  mobile : option string;
  landline : option string;
  email : option string;
  website : option string;
  languages : list string;
  comments : option string;
  tags : list string;
  expose : bool;
  is_ert : bool;
  is_third_party : bool;
  is_ifa : bool;
  profile_picture : option string }.

(** [contact.model_dump()] *)
Definition model_dump (c : t) : gmap string value :=
  list_to_map
    [ ("name", VStr (name c));
      ("extension", opt_str (extension c));
      ("company", opt_str (company c));
      ("department", opt_str (department c));
      ("designation", opt_str (designation c));
      ("mobile", opt_str (mobile c));
      ("landline", opt_str (landline c));
      ("email", opt_str (email c));
      ("website", opt_str (website c));
      ("languages", str_list (languages c));
      ("comments", opt_str (comments c));
      ("tags", str_list (tags c));
      ("expose", VBool (expose c));
      ("is_ert", VBool (is_ert c));
      ("is_third_party", VBool (is_third_party c));
      ("is_ifa", VBool (is_ifa c));
      ("profile_picture", opt_str (profile_picture c)) ].

End ContactCreate.

Module ContactUpdate.

(** Every field is optional and defaults to [None]; pydantic remembers
    which fields the caller set.  A field is [None] when it was not set,
    [Some None] when it was set to null, [Some (Some x)] when set to [x]. *)
Record t := Build {
  name : option (option string);
  extension : option (option string);
  is_ifa : option (option bool);
  company : option (option string);
  department : option (option string);
  designation : option (option string);
  mobile : option (option string);
  landline : option (option string);
  email : option (option string);
  website : option (option string);
  languages : option (option (list string));
  comments : option (option string);
  tags : option (option (list string));
  expose : option (option bool);
  is_ert : option (option bool);
  is_third_party : option (option bool);
  profile_picture : option (option string) }.

(** The update that sets nothing. *)
Definition unset : t :=
  Build None None None None None None None None None
        None None None None None None None None.

(** The update that sets the name and nothing else. *)
Definition only_name (x : string) : t :=
  Build (Some (Some x)) None None None None None None None None
        None None None None None None None None.

(** Reading an attribute: the value set, or the default [None]. *)
Definition attr {A} (f : option (option A)) : option A := mjoin f.

Definition dump {A} (conv : A → value) (k : string) (f : option (option A))
    : list (string * value) :=
  match f with
  | None => []
  | Some o => [(k, from_option conv VNull o)]
  end.

(** [contact_update.model_dump(exclude_unset=True)] *)
Definition model_dump_exclude_unset (u : t) : gmap string value :=
  list_to_map
    (dump VStr "name" (name u) ++
     dump VStr "extension" (extension u) ++
     dump VBool "is_ifa" (is_ifa u) ++
     dump VStr "company" (company u) ++
     dump VStr "department" (department u) ++
     dump VStr "designation" (designation u) ++
     dump VStr "mobile" (mobile u) ++
     dump VStr "landline" (landline u) ++
     dump VStr "email" (email u) ++
     dump VStr "website" (website u) ++
     dump str_list "languages" (languages u) ++
     dump VStr "comments" (comments u) ++
     dump str_list "tags" (tags u) ++
     dump VBool "expose" (expose u) ++
     dump VBool "is_ert" (is_ert u) ++
     dump VBool "is_third_party" (is_third_party u) ++
     dump VStr "profile_picture" (profile_picture u)).

End ContactUpdate.

(** ** [app/crud.py] *)

Module crud.

Import Mongo.

Inductive result (A : Type) :=
  | Return (a : A)
  | ValueError (msg : string)
  | DuplicateKeyError.
Arguments Return {A} a.
Arguments ValueError {A} msg.
Arguments DuplicateKeyError {A}.

Definition duplicate_email (email : string) : string :=
  "A contact with email '" +:+ email +:+ "' already exists".

Definition get_next_contact_id (contacts : collection) : string :=
  match find_last_id contacts with
  | None => "0001"
  | Some last_contact =>
      match Py.int (_id last_contact) with
      | Some last_id => Py.format_04d (last_id + 1)
      | None =>
          let count := count_documents ∅ contacts in
          Py.format_04d (Z.of_nat count + 1)
      end
  end.

(** The email held by some stored record. *)
Definition email_taken (email : string) (contacts : collection) : bool :=
  bool_decide (is_Some
    (find_one {[ "email" := Field (Equals (VStr email)) ]} contacts)).

Definition create_contact (contact : ContactCreate.t) (now : Z)
    (contacts : collection) : result document * collection :=
  let taken :=
    match ContactCreate.email contact with
    | Some email =>
        if Py.truthy_str (Some email) && email_taken email contacts
        then Some email else None
    | None => None
    end in
  match taken with
  | Some email => (ValueError (duplicate_email email), contacts)
  | None =>
      let contact_id := get_next_contact_id contacts in
      let contact_dict :=
        <["updated_at" := VDate now]>
          (<["created_at" := VDate now]> (ContactCreate.model_dump contact)) in
      match insert_one (Document contact_id contact_dict) contacts with
      | Some contacts' => (Return (Document contact_id contact_dict), contacts')
      | None => (DuplicateKeyError, contacts)
      end
  end.

Definition get_contact (contact_id : string) (contacts : collection)
    : option document :=
  find_by_id contact_id contacts.

Definition regex_i (pat : string) : cond := Regex pat.

Definition build_query (search tag language : option string)
    (is_ert is_ifa is_third_party exclude_third_party : option bool) : query :=
  let query : query := ∅ in
  let query :=
    match search with
    | Some s =>
        if Py.truthy_str search
        then <["$or" := Or [ ("name", regex_i s);
                              ("department", regex_i s);
                              ("tags", regex_i s);
                              ("designation", regex_i s) ]]> query
        else query
    | None => query
    end in
  let query :=
    match tag with
    | Some s =>
        if Py.truthy_str tag then <["tags" := Field (regex_i s)]> query
        else query
    | None => query
    end in
  let query :=
    match language with
    | Some s =>
        if Py.truthy_str language
        then <["languages" := Field (regex_i s)]> query
        else query
    | None => query
    end in
  let query :=
    match is_ert with
    | Some b => <["is_ert" := Field (Equals (VBool b))]> query
    | None => query
    end in
  let query :=
    match is_ifa with
    | Some b => <["is_ifa" := Field (Equals (VBool b))]> query
    | None => query
    end in
  let query :=
    match is_third_party with
    | Some b => <["is_third_party" := Field (Equals (VBool b))]> query
    | None => query
    end in
  let query :=
    match exclude_third_party with
    | Some true => <["is_third_party" := Field (NotEquals (VBool true))]> query
    | _ => query
    end in
  query.

Definition build_sort (sort_by : string) : string * direction :=
  if bool_decide (sort_by = "department") then ("department", Ascending)
  else if bool_decide (sort_by = "extension") then ("extension", Descending)
  else ("name", Ascending).

(** [None]: a filter string is a pattern outside the modelled fragment of
    regular expressions. *)
Definition get_contacts (search tag language : option string)
    (is_ert is_ifa is_third_party exclude_third_party : option bool)
    (sort_by : string) (skip limit : nat) (contacts : collection)
    : option (collection * nat) :=
  let query := build_query search tag language is_ert is_ifa is_third_party
                           exclude_third_party in
  if supported query then
    let total := count_documents query contacts in
    let '(sort_field, sort_direction) := build_sort sort_by in
    let contact_list :=
      find_page query sort_field sort_direction skip limit contacts in
    Some (contact_list, total)
  else None.

Definition update_contact (contact_id : string)
    (contact_update : ContactUpdate.t) (now : Z) (contacts : collection)
    : result (option document) * collection :=
  match find_by_id contact_id contacts with
  | None => (Return None, contacts)
  | Some existing =>
      let duplicate :=
        match ContactUpdate.attr (ContactUpdate.email contact_update) with
        | Some email =>
            if Py.truthy_str (Some email) then
              match find_one {[ "email" := Field (Equals (VStr email));
                                "_id" := Field (NotEquals (VStr contact_id)) ]}
                             contacts with
              | Some _ => Some email
              | None => None
              end
            else None
        | None => None
        end in
      match duplicate with
      | Some email => (ValueError (duplicate_email email), contacts)
      | None =>
          let update_dict :=
            <["updated_at" := VDate now]>
              (ContactUpdate.model_dump_exclude_unset contact_update) in
          let contacts' := update_one_set contact_id update_dict contacts in
          (Return (find_by_id contact_id contacts'), contacts')
      end
  end.

Definition delete_contact (contact_id : string) (contacts : collection)
    : bool * collection :=
  let '(deleted_count, contacts') := delete_one contact_id contacts in
  (bool_decide (0 < deleted_count), contacts').

(** What [set.update(v)] adds: the elements of a list, the characters of a
    string, the keys of a dict.  [None]: the value cannot be iterated
    ([TypeError]), or an element is not a string. *)
Definition strings_of (v : value) : option (list string) :=
  match v with
  | VArr l => mapM (λ e, match e with VStr s => Some s | _ => None end) l
  | VStr s => Some ((λ a, String a "") <$> String.list_ascii_of_string s)
  | VObj items => Some (items.*1)
  | _ => None
  end.

(** The loop shared by [get_all_tags] and [get_all_languages]. *)
Definition collect (field : string) (contacts : collection)
    : option (gset string) :=
  foldl (λ acc contact,
           match fields contact !! field with
           | Some v =>
               if Py.truthy v
               then all ← acc; l ← strings_of v; Some (all ∪ list_to_set l)
               else acc
           | None => acc
           end)
        (Some ∅) contacts.

Definition get_all_tags (contacts : collection) : option (list string) :=
  all_tags ← collect "tags" contacts;
  Some (Py.sorted all_tags).

Definition get_all_languages (contacts : collection) : option (list string) :=
  all_languages ← collect "languages" contacts;
  let all_languages := all_languages ∖ {["English"]} in
  Some (Py.sorted all_languages).

End crud.

(** ** [migrate_contacts.py] *)

Module migrate.

Import Mongo.

Section transform.

(** Python's [str] of a list, of a dict and of a datetime is their repr,
    which the migration only stores; it is left abstract. *)
Variable repr : value → string.

(** [str(v)] *)
Definition str (v : value) : string :=
  match v with
  | VStr s => s
  | VNull => "None"
  | VBool true => "True"
  | VBool false => "False"
  | VInt n => if (n <? 0)%Z then "-" +:+ Py.decimal (- n) else Py.decimal n
  | VFloat r => r
  | VArr _ | VObj _ | VDate _ => repr v
  end.

(** [old_contact.get(key)] and [old_contact.get(key, default)] *)
Definition get (old_contact : gmap string value) (key : string) : value :=
  default VNull (old_contact !! key).
Definition get_default (old_contact : gmap string value) (key : string)
    (dflt : value) : value :=
  default dflt (old_contact !! key).

Definition to_array (v : value) : list value :=
  if bool_decide (v = VNull) || bool_decide (v = VStr "") then []
  else match v with
       | VArr l => l
       | VStr s =>
           omap (λ item, if Py.truthy (VStr (Py.strip item))
                         then Some (VStr (Py.strip item)) else None)
                (Py.split "," s)
       | _ => []
       end.

Definition to_optional (v : value) : value :=
  if bool_decide (v = VNull) || bool_decide (v = VStr "")
     || bool_decide (v = VStr "null")
  then VNull
  else VStr (str v).

(** [None]: the call raises ([AttributeError]: the name is there and is
    not a string, so it has no [strip]). *)
Definition transform_contact (current_time : Z)
    (old_contact : gmap string value) : option document :=
  match get_default old_contact "name" (VStr "") with
  | VStr name =>
      Some (Document
        (str (get_default old_contact "id" (VStr "")))
        (list_to_map
          [ ("name", VStr (Py.strip name));
            ("extension", to_optional (get old_contact "extension"));
            ("company", to_optional (get old_contact "company"));
            ("department", to_optional (get old_contact "department"));
            ("designation", to_optional (get old_contact "designation"));
            ("mobile", to_optional (get old_contact "mobile"));
            ("landline", to_optional (get old_contact "landline"));
            ("email", to_optional (get old_contact "email"));
            ("website", to_optional (get old_contact "website"));
            ("comments", to_optional (get old_contact "comments"));
            ("expose", VBool true);
            ("languages", VArr (to_array (get old_contact "languages")));
            ("tags", VArr (to_array (get old_contact "tags")));
            ("is_ert", get_default old_contact "is_ert" (VBool false));
            ("created_at", VDate current_time);
            ("updated_at", VDate current_time) ]))
  | _ => None
  end.

(** The loop that transforms the batch: the transformed contacts and the
    number of records that failed; the i-th record reads the clock at i. *)
Fixpoint transform_all (clock : nat → Z) (i : nat)
    (contacts : list (gmap string value)) : list document * Z :=
  match contacts with
  | [] => ([], 0%Z)
  | contact :: rest =>
      let '(transformed_contacts, errors) := transform_all clock (S i) rest in
      match transform_contact (clock i) contact with
      | Some transformed => (transformed :: transformed_contacts, errors)
      | None => (transformed_contacts, (errors + 1)%Z)
      end
  end.

End transform.

(** [UpdateOne({'_id': id}, {'$set': set, '$setOnInsert': setOnInsert},
    upsert=True)] *)
Record UpdateOne := {
  filter_id : string;
  set : gmap string value;
  setOnInsert : gmap string value }.

Definition operation (skip_duplicates : bool) (contact : document) : UpdateOne :=
  if skip_duplicates then
    {| filter_id := _id contact; set := ∅; setOnInsert := fields contact |}
  else
    {| filter_id := _id contact;
       set := delete "created_at" (fields contact);
       setOnInsert :=
         match fields contact !! "created_at" with
         | Some t => {[ "created_at" := t ]}
         | None => ∅
         end |}.

Inductive op_result := Upserted | Modified | Unchanged | Failed.

#[global] Instance op_result_eqdec : EqDecision op_result.
Proof. solve_decision. Defined.

(** One upsert on the collection. *)
Definition apply_update (op : UpdateOne) (c : collection)
    : op_result * collection :=
  match find_by_id (filter_id op) c with
  | Some d =>
      if bool_decide (set op ∪ fields d = fields d) then (Unchanged, c)
      else (Modified, update_one_set (filter_id op) (set op) c)
  | None =>
      (Upserted, c ++ [Document (filter_id op) (set op ∪ setOnInsert op)])
  end.

(** The server either cannot be reached, or serves the batch and rejects
    the operations (by position) it cannot write. *)
Inductive server := Unreachable | Serving (rejects : nat → bool).

(** An unordered batch: a rejected operation does not stop the others. *)
Fixpoint execute (rejects : nat → bool) (i : nat) (ops : list UpdateOne)
    (c : collection) : list op_result * collection :=
  match ops with
  | [] => ([], c)
  | op :: ops' =>
      let '(r, c') := if rejects i then (Failed, c) else apply_update op c in
      let '(rs, c'') := execute rejects (S i) ops' c' in
      (r :: rs, c'')
  end.

Definition tally (r : op_result) (rs : list op_result) : Z :=
  Z.of_nat (length (List.filter (λ x, bool_decide (x = r)) rs)).

Inductive bulk_outcome :=
  | BulkWriteResult (upserted_count modified_count : Z)
  | BulkWriteError (writeErrors nUpserted nModified : Z)
  | OtherError.

(** [collection.bulk_write(operations, ordered=False)]; an empty list of
    operations raises [InvalidOperation]. *)
Definition bulk_write (ops : list UpdateOne) (srv : server) (c : collection)
    : bulk_outcome * collection :=
  match ops, srv with
  | [], _ | _, Unreachable => (OtherError, c)
  | _, Serving rejects =>
      let '(rs, c') := execute rejects 0 ops c in
      if bool_decide (Failed ∈ rs)
      then (BulkWriteError (tally Failed rs) (tally Upserted rs)
                           (tally Modified rs), c')
      else (BulkWriteResult (tally Upserted rs) (tally Modified rs), c')
  end.

Record stats := Stats {
  total : Z; inserted : Z; updated : Z; skipped : Z; errors : Z }.

Definition migrate_contacts (repr : value → string)
    (contacts : list (gmap string value)) (skip_duplicates : bool)
    (clock : nat → Z) (srv : server) (c : collection) : stats * collection :=
  let total := Z.of_nat (length contacts) in
  let '(transformed_contacts, errors) := transform_all repr clock 0 contacts in
  let operations := operation skip_duplicates <$> transformed_contacts in
  match bulk_write operations srv c with
  | (BulkWriteResult upserted_count modified_count, c') =>
      (Stats total upserted_count modified_count
             (total - upserted_count - modified_count - errors) errors, c')
  | (BulkWriteError writeErrors nUpserted nModified, c') =>
      (Stats total nUpserted nModified 0 (errors + writeErrors), c')
  | (OtherError, c') =>
      (Stats total 0 0 0 total, c')
  end%Z.

End migrate.

(** ** The specification's own notions, stated independently of the code *)

Module spec.

(** The identifier the specification asks [nextId] for: ["0001"] on an
    empty store, else the successor of the greatest id read as a number. *)
Definition next_id (contacts : collection) : string :=
  match contacts with
  | [] => "0001"
  | _ => Py.format_04d
           (foldr Z.max 0%Z (omap (λ d, Py.int (_id d)) contacts) + 1)
  end.





(** Case-insensitive containment: [t] contains [s] once the ASCII letters of
    both are put in lower case. *)
Fixpoint lower_str (s : string) : string :=
  match s with
  | "" => ""
  | String a s' => String (Mongo.lower a) (lower_str s')
  end.







(** The record lists the language [x]. *)
Definition lists_language (x : string) (d : document) : Prop :=
  ∃ l, fields d !! "languages" = Some (VArr l) ∧ VStr x ∈ l.

(** The languages of the record are, as the data model has them, a sequence
    of strings (or null, or not there). *)
Definition languages_typed (d : document) : Prop :=
  match fields d !! "languages" with
  | None | Some VNull => True
  | Some (VArr l) => Forall (λ e, ∃ s, e = VStr s) l
  | Some _ => False
  end.





End spec.

(** Identifiers of exactly four decimal digits, as the data model has them. *)
Definition is_digit (a : ascii) : bool := bool_decide (is_Some (Py.digit a)).

Definition four_digits (s : string) : bool :=
  match s with
  | String a (String b (String c (String d ""))) =>
      is_digit a && is_digit b && is_digit c && is_digit d
  | _ => false
  end.

(** ** Auxiliary definitions of the proofs *)


(** A conditional insertion, and the alternatives of a search: the query of
    [get_contacts] is a chain of them. *)
Definition put (b : bool) (k : string) (cl : Mongo.clause)
    (q : Mongo.query) : Mongo.query :=
  if b then <[k := cl]> q else q.

Definition search_alts (s : string) : Mongo.clause :=
  Mongo.Or [ ("name", Mongo.Regex s); ("department", Mongo.Regex s);
             ("tags", Mongo.Regex s); ("designation", Mongo.Regex s) ].

(** One turn of the loop of [crud.collect]. *)
Definition collect_step (field : string) (acc : option (gset string))
    (contact : document) : option (gset string) :=
  match fields contact !! field with
  | Some v =>
      if Py.truthy v
      then all ← acc; l ← crud.strings_of v; Some (all ∪ list_to_set l)
      else acc
  | None => acc
  end.




(** ** Sample data *)

Definition ann : document :=
  Document "0001"
    {[ "name" := VStr "Ann Lee"; "department" := VStr "Sales";
       "designation" := VNull; "tags" := VArr [VStr "vip"];
       "languages" := VArr [VStr "English"; VStr "french"];
       "expose" := VBool true; "is_third_party" := VBool false ]}.

Definition bob : document :=
  Document "0002"
    {[ "name" := VStr "Bob"; "department" := VStr "Planning";
       "tags" := VArr []; "languages" := VArr [VStr "english"];
       "expose" := VBool false; "is_third_party" := VBool true ]}.

Definition directory : collection := [ann; bob].



Definition nobody : ContactCreate.t :=
  ContactCreate.Build "Nobody" None None None None None None None None
                      [] None [] true false false false None.

Definition with_email (e : string) : ContactCreate.t :=
  ContactCreate.Build "Somebody" None None None None None None (Some e) None
                      [] None [] true false false false None.

(** The record of the specification's example, and one without a usable
    name. *)
Definition legacy_42 : gmap string value :=
  {[ "id" := VStr "42"; "languages" := VStr "English, French";
     "tags" := VStr "" ]}.


Definition legacy_a : gmap string value :=
  {[ "id" := VStr "1"; "name" := VStr "A" ]}.

Definition legacy_b : gmap string value :=
  {[ "id" := VStr "2"; "name" := VStr "B" ]}.

(** A server that rejects the second operation of a batch. *)
Definition rejects_second : migrate.server :=
  migrate.Serving (λ i, bool_decide (i = 1)).

(** A server that writes everything. *)
Definition reliable : migrate.server := migrate.Serving (λ _, false).

(** * Properties *)

Example int_0042 : Py.int "0042" = Some 42%Z.
Proof. reflexivity. Qed.

Example int_padded : Py.int "  -1_000 " = Some (-1000)%Z.
Proof. reflexivity. Qed.

Example int_bad : Py.int "12a" = None ∧ Py.int "" = None ∧ Py.int "1__2" = None.
Proof. repeat split. Qed.

Example format_examples :
  Py.format_04d 7 = "0007" ∧ Py.format_04d 10000 = "10000" ∧
  Py.format_04d (-4) = "-004".
Proof. repeat split. Qed.

Example split_examples :
  Py.split "," "a, b,,c" = ["a"; " b"; ""; "c"] ∧ Py.split "," "" = [""].
Proof. repeat split. Qed.

Example strip_example : Py.strip "  a b  " = "a b".
Proof. reflexivity. Qed.

(** ** Identifier assignment *)

Import crud Mongo.

Example next_id_empty : get_next_contact_id [] = "0001".
Proof. reflexivity. Qed.

Example next_id_fallback :
  get_next_contact_id [Document "0001" ∅; Document "abc" ∅] = "0003".
Proof. vm_compute. reflexivity. Qed.

(** On a store whose ids all have four digits the greatest id in the order
    of strings is the greatest number, and the code returns what the
    specification asks for. *)

Lemma create_assigns_next_id contact now (contacts : collection) d contacts' :
  create_contact contact now contacts = (Return d, contacts') →
  _id d = get_next_contact_id contacts ∧ contacts' = contacts ++ [d] ∧
  find_by_id (_id d) contacts = None.
Proof.
  unfold create_contact.
  destruct (match ContactCreate.email contact with Some _ => _ | None => _ end);
    [intros [=]|].
  remember (get_next_contact_id contacts) as id eqn:Hid.
  remember (<["updated_at" := VDate now]> _) as dict eqn:Hdict.
  unfold insert_one. cbn [_id].
  destruct (find_by_id id contacts) eqn:Hf; cbv beta iota; intros [= <- <-].
  done.
Qed.

Lemma digit_code a d :
  Py.digit a = Some d → (0 ≤ d ≤ 9)%Z ∧ Z.of_N (N_of_ascii a) = (48 + d)%Z.
Proof.
  unfold Py.digit. cbv zeta.
  destruct (_ && _) eqn:H; [|done]. intros [= <-].
  apply andb_true_iff in H as [H1 H2]. lia.
Qed.

Lemma digit_not_space a d : Py.digit a = Some d → Py.int_space a = false.
Proof.
  intros H. apply digit_code in H as [Hd Hc].
  unfold Py.int_space.
  destruct (N_of_ascii a) as [|p] eqn:E; [lia|].
  repeat (destruct p as [p|p|]; try lia; try reflexivity).
Qed.

Lemma digit_not_sign a d :
  Py.digit a = Some d → Ascii.eqb a "+" = false ∧ Ascii.eqb a "-" = false.
Proof.
  intros H. apply digit_code in H as [Hd Hc].
  split; apply Ascii.eqb_neq; intros ->; simpl in Hc; lia.
Qed.

Lemma digit_compare a b da db :
  Py.digit a = Some da → Py.digit b = Some db →
  Ascii.compare a b = (da ?= db)%Z.
Proof.
  intros [_ Ha]%digit_code [_ Hb]%digit_code.
  unfold Ascii.compare. rewrite <- N2Z.inj_compare, Ha, Hb.
  apply Z.add_compare_mono_l.
Qed.

Lemma four_digits_inv s :
  four_digits s = true →
  ∃ a b c d da db dc dd,
    s = String a (String b (String c (String d ""))) ∧
    Py.digit a = Some da ∧ Py.digit b = Some db ∧
    Py.digit c = Some dc ∧ Py.digit d = Some dd.
Proof.
  destruct s as [|a [|b [|c [|d [|]]]]]; try done. simpl.
  rewrite !andb_true_iff. unfold is_digit. rewrite !bool_decide_eq_true.
  intros [[[[da Ha] [db Hb]] [dc Hc]] [dd Hd]].
  by exists a, b, c, d, da, db, dc, dd.
Qed.

Lemma int_four_digits a b c d da db dc dd :
  Py.digit a = Some da → Py.digit b = Some db →
  Py.digit c = Some dc → Py.digit d = Some dd →
  Py.int (String a (String b (String c (String d "")))) =
    Some (1000 * da + 100 * db + 10 * dc + dd)%Z.
Proof.
  intros Ha Hb Hc Hd. unfold Py.int. simpl.
  rewrite (digit_not_space _ _ Ha). simpl.
  rewrite (digit_not_space _ _ Hd). simpl.
  destruct (digit_not_sign _ _ Ha) as [-> ->].
  simpl. rewrite Ha, Hb, Hc, Hd. f_equal. lia.
Qed.

Lemma ltb_four_digits s t :
  four_digits s = true → four_digits t = true →
  ∃ m n, (0 ≤ m)%Z ∧ (0 ≤ n)%Z ∧ Py.int s = Some m ∧ Py.int t = Some n ∧
         String.ltb s t = (m <? n)%Z.
Proof.
  intros (a & b & c & d & da & db & dc & dd & -> & Ha & Hb & Hc & Hd)%four_digits_inv
         (a' & b' & c' & d' & da' & db' & dc' & dd' & -> & Ha' & Hb' & Hc' & Hd')%four_digits_inv.
  exists (1000 * da + 100 * db + 10 * dc + dd)%Z,
    (1000 * da' + 100 * db' + 10 * dc' + dd')%Z.
  rewrite (int_four_digits _ _ _ _ _ _ _ _ Ha Hb Hc Hd),
    (int_four_digits _ _ _ _ _ _ _ _ Ha' Hb' Hc' Hd').
  pose proof (digit_code _ _ Ha). pose proof (digit_code _ _ Hb).
  pose proof (digit_code _ _ Hc). pose proof (digit_code _ _ Hd).
  pose proof (digit_code _ _ Ha'). pose proof (digit_code _ _ Hb').
  pose proof (digit_code _ _ Hc'). pose proof (digit_code _ _ Hd').
  split; [lia|]. split; [lia|]. split; [done|]. split; [done|].
  unfold String.ltb. simpl.
  rewrite (digit_compare _ _ _ _ Ha Ha'), (digit_compare _ _ _ _ Hb Hb'),
    (digit_compare _ _ _ _ Hc Hc'), (digit_compare _ _ _ _ Hd Hd').
  symmetry.
  destruct (Z.compare_spec da da'); [| apply Z.ltb_lt; lia | apply Z.ltb_ge; lia].
  destruct (Z.compare_spec db db'); [| apply Z.ltb_lt; lia | apply Z.ltb_ge; lia].
  destruct (Z.compare_spec dc dc'); [| apply Z.ltb_lt; lia | apply Z.ltb_ge; lia].
  destruct (Z.compare_spec dd dd'); [apply Z.ltb_ge | apply Z.ltb_lt | apply Z.ltb_ge]; lia.
Qed.

Lemma find_last_id_four_digits (contacts : collection) :
  Forall (λ d, four_digits (_id d) = true) contacts → contacts ≠ [] →
  ∃ last v, find_last_id contacts = Some last ∧
            four_digits (_id last) = true ∧ Py.int (_id last) = Some v ∧
            v = foldr Z.max 0%Z (omap (λ d, Py.int (_id d)) contacts).
Proof.
  induction 1 as [|d c Hd Hc IH]; [done|]. intros _.
  destruct (ltb_four_digits _ _ Hd Hd) as (m & _ & Hm & _ & Hi & _ & _).
  cbn [find_last_id omap list_omap]. rewrite Hi. cbn [foldr].
  destruct (decide (c = [])) as [-> | Hne].
  - exists d, m. simpl. repeat split; try done. lia.
  - destruct (IH Hne) as (last & v & -> & Hl & Hv & <-).
    destruct (ltb_four_digits _ _ Hd Hl) as (m' & n & _ & Hn & Hi' & Hj & ->).
    rewrite Hi in Hi'. injection Hi' as <-.
    rewrite Hv in Hj. injection Hj as <-.
    destruct (Z.ltb_spec m v).
    + exists last, v. repeat split; try done. lia.
    + exists d, m. repeat split; try done. lia.
Qed.

Lemma next_id_on_four_digit_ids (contacts : collection) :
  Forall (λ d, four_digits (_id d) = true) contacts →
  get_next_contact_id contacts = spec.next_id contacts.
Proof.
  intros H. destruct contacts as [|d c]; [done|].
  destruct (find_last_id_four_digits _ H) as (last & v & Hl & _ & Hv & Hmax);
    [done|].
  unfold get_next_contact_id, spec.next_id. rewrite Hl, Hv. by rewrite Hmax.
Qed.

(** A store the migration filled with the id ["42"]: the first creation
    takes ["0043"], and every later one computes ["0043"] again. *)
Example next_id_repeats_after_migrated_42 :
  ∃ d1 c1,
    create_contact nobody 1 [Document "42" ∅] = (Return d1, c1) ∧
    _id d1 = "0043" ∧
    get_next_contact_id c1 = "0043" ∧
    spec.next_id c1 = "0044" ∧
    create_contact nobody 2 c1 = (DuplicateKeyError, c1).
Proof.
  pose (r1 := create_contact nobody 1 [Document "42" ∅]).
  exists (match r1.1 with Return d => d | _ => Document "" ∅ end), r1.2.
  repeat split; vm_compute; reflexivity.
Qed.


(** C1 (the code departs from the claim).  [get_next_contact_id] reads the
    greatest id in the order of strings, which is not the greatest number
    once ids differ in length.  Starting from a store whose greatest id is
    ["9998"], two creations assign ["9999"] and ["10000"]; the third one
    computes ["10000"] again, where the successor of the greatest numeric id
    is ["10001"], and fails on the duplicate key. *)
Theorem next_id_repeats_after_9999 :
  ∃ d1 c1 d2 c2,
    create_contact nobody 1 [Document "9998" ∅] = (Return d1, c1) ∧
    _id d1 = "9999" ∧
    create_contact nobody 2 c1 = (Return d2, c2) ∧
    _id d2 = "10000" ∧
    get_next_contact_id c2 = "10000" ∧
    spec.next_id c2 = "10001" ∧
    create_contact nobody 3 c2 = (DuplicateKeyError, c2).
Proof.
  pose (r1 := create_contact nobody 1 [Document "9998" ∅]).
  pose (r2 := create_contact nobody 2 r1.2).
  exists (match r1.1 with Return d => d | _ => Document "" ∅ end), r1.2,
         (match r2.1 with Return d => d | _ => Document "" ∅ end), r2.2.
  repeat split; vm_compute; reflexivity.
Qed.

(** ** Queries *)



Lemma find_by_id_Some id c d :
  find_by_id id c = Some d → d ∈ c ∧ _id d = id.
Proof.
  unfold find_by_id. intros H. apply List.find_some in H as [Hin Hp].
  split; [by apply list_elem_of_In | by apply bool_decide_eq_true in Hp].
Qed.

Lemma matches_spec (q : query) d :
  matches q d = true ↔ ∀ k cl, q !! k = Some cl → clause_holds d k cl = true.
Proof. unfold matches. by rewrite bool_decide_eq_true. Qed.

Lemma matches_empty d : matches ∅ d = true.
Proof. apply matches_spec. intros k cl. by rewrite lookup_empty. Qed.


Lemma matches_insert k cl (q : query) d :
  q !! k = None →
  matches (<[k := cl]> q) d = clause_holds d k cl && matches q d.
Proof.
  intros Hk. apply Bool.eq_iff_eq_true. unfold matches.
  by rewrite andb_true_iff, !bool_decide_eq_true, map_Forall_insert.
Qed.



(** The query of [get_contacts], filter by filter. *)

Lemma build_query_chain search tag language is_ert is_ifa is_third_party
    exclude_third_party :
  build_query search tag language is_ert is_ifa is_third_party
              exclude_third_party =
  put (bool_decide (exclude_third_party = Some true)) "is_third_party"
      (Field (NotEquals (VBool true)))
  (put (bool_decide (is_Some is_third_party)) "is_third_party"
      (Field (Equals (VBool (default false is_third_party))))
  (put (bool_decide (is_Some is_ifa)) "is_ifa"
      (Field (Equals (VBool (default false is_ifa))))
  (put (bool_decide (is_Some is_ert)) "is_ert"
      (Field (Equals (VBool (default false is_ert))))
  (put (Py.truthy_str language) "languages"
      (Field (Regex (default "" language)))
  (put (Py.truthy_str tag) "tags" (Field (Regex (default "" tag)))
  (put (Py.truthy_str search) "$or" (search_alts (default "" search)) ∅)))))).
Proof.
  unfold build_query.
  destruct search, tag, language, is_ert, is_ifa, is_third_party,
    exclude_third_party as [[]|]; reflexivity.
Qed.

Lemma lookup_put_ne b k k' cl (q : query) :
  k ≠ k' → put b k cl q !! k' = q !! k'.
Proof. intros H. unfold put. destruct b; [by apply lookup_insert_ne | done]. Qed.

Lemma matches_put b k cl (q : query) d :
  q !! k = None →
  matches (put b k cl q) d = (if b then clause_holds d k cl else true) && matches q d.
Proof. intros H. unfold put. destruct b; [by apply matches_insert | done]. Qed.

Lemma matches_put_put b b' k cl cl' (q : query) d :
  q !! k = None →
  matches (put b k cl (put b' k cl' q)) d =
  (if b then clause_holds d k cl
   else if b' then clause_holds d k cl' else true) && matches q d.
Proof.
  intros H. unfold put. destruct b, b'; try done.
  - rewrite insert_insert_eq. by apply matches_insert.
  - by apply matches_insert.
  - by apply matches_insert.
Qed.

Lemma matches_chain search tag language is_ert is_ifa is_third_party
    exclude_third_party d :
  matches (build_query search tag language is_ert is_ifa is_third_party
                       exclude_third_party) d =
  (if bool_decide (exclude_third_party = Some true)
   then clause_holds d "is_third_party" (Field (NotEquals (VBool true)))
   else if bool_decide (is_Some is_third_party)
        then clause_holds d "is_third_party"
               (Field (Equals (VBool (default false is_third_party))))
        else true) &&
  ((if bool_decide (is_Some is_ifa)
    then clause_holds d "is_ifa" (Field (Equals (VBool (default false is_ifa))))
    else true) &&
   ((if bool_decide (is_Some is_ert)
     then clause_holds d "is_ert" (Field (Equals (VBool (default false is_ert))))
     else true) &&
    ((if Py.truthy_str language
      then clause_holds d "languages" (Field (Regex (default "" language)))
      else true) &&
     ((if Py.truthy_str tag
       then clause_holds d "tags" (Field (Regex (default "" tag)))
       else true) &&
      (if Py.truthy_str search
       then clause_holds d "$or" (search_alts (default "" search))
       else true))))).
Proof.
  rewrite build_query_chain.
  rewrite matches_put_put by (rewrite ?lookup_put_ne by done; apply lookup_empty).
  rewrite !matches_put by (rewrite ?lookup_put_ne by done; apply lookup_empty).
  by rewrite matches_empty, andb_true_r.
Qed.

Lemma matches_build_query search tag language is_ert is_ifa is_third_party
    exclude_third_party d :
  matches (build_query search tag language is_ert is_ifa is_third_party
                       exclude_third_party) d =
  matches (build_query search None None None None None None) d &&
  matches (build_query None tag None None None None None) d &&
  matches (build_query None None language None None None None) d &&
  matches (build_query None None None is_ert None None None) d &&
  matches (build_query None None None None is_ifa None None) d &&
  matches (build_query None None None None None is_third_party
                       exclude_third_party) d.
Proof.
  rewrite !matches_chain.
  change (Py.truthy_str None) with false.
  change (bool_decide (is_Some (@None bool))) with false.
  change (bool_decide (@None bool = Some true)) with false.
  cbv iota. rewrite !andb_true_l, !andb_true_r.
  repeat match goal with
         | |- context [if ?b then ?x else ?y] =>
             generalize (if b then x else y); intro
         end.
  repeat match goal with b : bool |- _ => destruct b end; reflexivity.
Qed.

Lemma exclude_replaces_filter search tag language is_ert is_ifa b :
  build_query search tag language is_ert is_ifa (Some b) (Some true) =
  build_query search tag language is_ert is_ifa None (Some true).
Proof.
  rewrite !build_query_chain. unfold put at 1 2 8 9. simpl.
  by rewrite insert_insert_eq.
Qed.

Lemma matches_exclude is_third_party d :
  matches (build_query None None None None None is_third_party (Some true)) d =
  negb (equals (fields d !! "is_third_party") (VBool true)).
Proof. rewrite matches_chain. simpl. by rewrite !andb_true_r. Qed.
(** ** Duplicate emails *)



(** ** Normalization of a legacy record *)

Import migrate.

Lemma to_array_arr l : to_array (VArr l) = l.
Proof. reflexivity. Qed.









(** The example of the specification. *)
Example transform_legacy_42 repr now :
  ∃ doc, transform_contact repr now legacy_42 = Some doc ∧
         _id doc = "42" ∧
         fields doc !! "languages" = Some (VArr [VStr "English"; VStr "French"]) ∧
         fields doc !! "tags" = Some (VArr []) ∧
         fields doc !! "expose" = Some (VBool true).
Proof. eexists. split; [reflexivity|]. by vm_compute. Qed.


(** ** Search *)


Lemma lower_str_app s t :
  spec.lower_str (s +:+ t) = spec.lower_str s +:+ spec.lower_str t.
Proof. induction s as [|a s IH]; [done|]. simpl. by rewrite IH. Qed.














(** ** Combination of the filters *)

(** C5 (amended).  The supplied filters combine by conjunction: a record
    matches the query exactly when it matches each filter taken alone, the
    two third-party parameters counting as one filter.  In that filter
    [exclude_third_party = true] replaces an explicit [is_third_party]: the
    records kept are those whose [is_third_party] is not true, and the
    listing is the one obtained with [exclude_third_party = true] alone. *)
Theorem filters_conjoin_and_exclusion_replaces search tag language is_ert
    is_ifa is_third_party exclude_third_party b sort_by skip limit
    (contacts : collection) d :
  matches (build_query search tag language is_ert is_ifa is_third_party
                       exclude_third_party) d =
    matches (build_query search None None None None None None) d &&
    matches (build_query None tag None None None None None) d &&
    matches (build_query None None language None None None None) d &&
    matches (build_query None None None is_ert None None None) d &&
    matches (build_query None None None None is_ifa None None) d &&
    matches (build_query None None None None None is_third_party
                         exclude_third_party) d ∧
  matches (build_query None None None None None (Some b) (Some true)) d =
    negb (equals (fields d !! "is_third_party") (VBool true)) ∧
  get_contacts search tag language is_ert is_ifa (Some b) (Some true)
               sort_by skip limit contacts =
    get_contacts search tag language is_ert is_ifa None (Some true)
                 sort_by skip limit contacts.
Proof.
  split; [apply matches_build_query|]. split; [apply matches_exclude|].
  unfold get_contacts. by rewrite exclude_replaces_filter.
Qed.

(** C5 as stated fails: with both filters set to true the listing is not
    empty when a record is not third-party. *)
Lemma both_third_party_filters_keep_the_others :
  ¬ (∀ contacts : collection,
       get_contacts None None None None None (Some true) (Some true)
                    "name" 0 20 contacts = Some ([], 0)).
Proof.
  intros H. specialize (H directory). vm_compute in H. discriminate H.
Qed.
(** ** Facets *)

Lemma strings_of_typed l :
  Forall (λ e, ∃ s, e = VStr s) l →
  ∃ strs, strings_of (VArr l) = Some strs ∧ l = VStr <$> strs.
Proof.
  induction 1 as [|e l [s ->] Hl (strs & IH & ->)].
  - by exists [].
  - exists (s :: strs). split; [|done]. simpl in *. by rewrite IH.
Qed.

Lemma collect_step_typed acc d :
  spec.languages_typed d →
  ∃ S, collect_step "languages" (Some acc) d = Some S ∧
       ∀ x, x ∈ S ↔ x ∈ acc ∨ spec.lists_language x d.
Proof.
  unfold spec.languages_typed, spec.lists_language, collect_step.
  destruct (fields d !! "languages") as [v|] eqn:Hv.
  - destruct v; try done.
    + intros _. exists acc. split; [done|]. intros x. split; [by left|].
      intros [H | (l & [=] & _)]. done.
    + intros Hl. destruct (strings_of_typed _ Hl) as (strs & Hs & ->).
      destruct (Py.truthy _) eqn:Ht.
      * exists (acc ∪ list_to_set strs). split.
        -- cbn [mbind option_bind]. by rewrite Hs.
        -- intros x. rewrite elem_of_union, elem_of_list_to_set. split.
           ++ intros [H | H]; [by left | right].
              eexists. split; [done|]. by apply list_elem_of_fmap_2.
           ++ intros [H | (l & [= <-] & Hx)]; [by left | right].
              apply list_elem_of_fmap in Hx as (y & [= ->] & Hy). done.
      * exists acc. split; [done|]. intros x. split; [by left|].
        intros [H | (l & [= <-] & Hx)]; [done|].
        cbn [Py.truthy] in Ht. apply negb_false_iff, bool_decide_eq_true in Ht.
        rewrite Ht in Hx. by apply elem_of_nil in Hx.
  - intros _. exists acc. split; [done|]. intros x. split; [by left|].
    intros [H | (l & [=] & _)]. done.
Qed.

Lemma collect_typed (contacts : collection) acc :
  Forall spec.languages_typed contacts →
  ∃ S, foldl (collect_step "languages") (Some acc) contacts = Some S ∧
       ∀ x, x ∈ S ↔ x ∈ acc ∨ ∃ d, d ∈ contacts ∧ spec.lists_language x d.
Proof.
  intros H. revert acc. induction H as [|d c Hd Hc IH]; intros acc.
  - exists acc. split; [done|]. intros x. split; [by left|].
    intros [H | (d & Hd & _)]; [done | by apply elem_of_nil in Hd].
  - destruct (collect_step_typed acc d Hd) as (S1 & HS1 & Hx1).
    destruct (IH S1) as (S & HS & Hx).
    exists S. split; [cbn [foldl]; by rewrite HS1|].
    intros x. rewrite Hx, Hx1. split.
    + intros [[H | H] | (d' & Hd' & H)]; [by left | right | right].
      * exists d. split; [left | done].
      * exists d'. split; [by right | done].
    + intros [H | (d' & Hd' & H)]; [by left; left|].
      apply elem_of_cons in Hd' as [-> | Hd']; [by left; right|].
      right. eauto.
Qed.

(** C6 (amended).  On a collection whose languages are sequences of strings,
    [get_all_languages] returns the lexicographically sorted list, without
    repetition, of every language value that occurs on some record and is
    not exactly ["English"]; the removal is case-sensitive, so ["english"]
    or ["ENGLISH"] stay in the result. *)
Theorem languages_without_English (contacts : collection) :
  Forall spec.languages_typed contacts →
  ∃ r, get_all_languages contacts = Some r ∧
       Sorted String.le r ∧ NoDup r ∧
       ∀ x, x ∈ r ↔
            x ≠ "English" ∧ ∃ d, d ∈ contacts ∧ spec.lists_language x d.
Proof.
  intros H. destruct (collect_typed contacts ∅ H) as (S & HS & Hx).
  exists (Py.sorted (S ∖ {["English"]})). split.
  { unfold get_all_languages, collect. change (foldl _ (Some ∅) contacts)
      with (foldl (collect_step "languages") (Some ∅) contacts).
    by rewrite HS. }
  unfold Py.sorted. split; [apply Sorted_merge_sort, _|]. split.
  - rewrite merge_sort_Permutation. apply NoDup_elements.
  - intros x. rewrite merge_sort_Permutation, elem_of_elements.
    rewrite elem_of_difference, Hx, elem_of_singleton. set_solver.
Qed.

Lemma languages_without_English_witness :
  Forall spec.languages_typed directory ∧
  ∃ r, get_all_languages directory = Some r ∧
       Sorted String.le r ∧ NoDup r ∧
       ∀ x, x ∈ r ↔
            x ≠ "English" ∧ ∃ d, d ∈ directory ∧ spec.lists_language x d.
Proof.
  assert (Forall spec.languages_typed directory) as H.
  { repeat constructor; unfold spec.languages_typed;
      repeat constructor; by eexists. }
  split; [exact H | apply languages_without_English, H].
Defined.

(** C6 as stated fails: a language recorded as ["english"] is listed. *)
Lemma lower_case_english_is_listed :
  ¬ (∀ (contacts : collection) r x,
       get_all_languages contacts = Some r → x ∈ r →
       spec.lower_str x ≠ "english").
Proof.
  intros H.
  apply (H directory ["english"; "french"] "english");
    [vm_compute; reflexivity | left | reflexivity].
Qed.
(** ** Partial updates *)








(** ** Statistics of a migration *)

Lemma apply_update_not_failed op (c : collection) :
  (apply_update op c).1 ≠ Failed.
Proof.
  unfold apply_update. destruct (find_by_id _ c); [|done].
  by destruct (bool_decide _).
Qed.


Lemma execute_not_failed rejects i ops (c : collection) :
  (∀ j, rejects j = false) → Failed ∉ (execute rejects i ops c).1.
Proof.
  intros Hr. revert i c. induction ops as [|op ops IH]; intros i c.
  - apply not_elem_of_nil.
  - cbn [execute]. rewrite Hr.
    pose proof (apply_update_not_failed op c) as Hop.
    destruct (apply_update op c) as [r c1].
    specialize (IH (S i) c1). destruct (execute rejects (S i) ops c1) as [rs c2].
    cbn [fst] in *. intros [E | H]%elem_of_cons; [congruence | by apply IH].
Qed.

(** When the bulk write reports no write error the counters reconcile. *)
Lemma stats_reconcile_without_write_errors repr contacts skip_duplicates clock
    srv (c : collection) :
  (∀ rejects, srv = Serving rejects → ∀ j, rejects j = false) →
  let st := (migrate_contacts repr contacts skip_duplicates clock srv c).1 in
  (inserted st + updated st + skipped st + errors st = total st)%Z.
Proof.
  intros Hsrv. unfold migrate_contacts.
  destruct (transform_all repr clock 0 contacts) as [docs errs].
  unfold bulk_write.
  destruct (operation skip_duplicates <$> docs) as [|op ops] eqn:Hops;
    [cbn; lia|].
  destruct srv as [|rejects]; [cbn; lia|].
  pose proof (execute_not_failed rejects 0 (op :: ops) c (Hsrv _ eq_refl)) as Hnf.
  destruct (execute rejects 0 (op :: ops) c) as [rs c'].
  cbn [fst] in Hnf. rewrite bool_decide_eq_false_2 by done. cbn. lia.
Qed.

(** C8 (the code departs from the claim).  With [skip_duplicates] set, a
    batch of two records of which the first is already stored and the second
    is rejected by the server: the bulk write raises, and the branch that
    handles it counts the write error but leaves [skipped] at zero, so the
    four counters add up to one where the total is two. *)
Theorem write_error_breaks_reconciliation :
  let c1 := (migrate_contacts (λ _, "") [legacy_a] true (λ _, 0%Z) reliable []).2 in
  let st := (migrate_contacts (λ _, "") [legacy_a; legacy_b] true (λ _, 1%Z)
                              rejects_second c1).1 in
  st = Stats 2 0 0 0 1 ∧
  (inserted st + updated st + skipped st + errors st ≠ total st)%Z.
Proof. split; [vm_compute; reflexivity | by vm_compute]. Qed.
(** ** Running the migration twice *)







Lemma find_by_id_app id (c : collection) d :
  find_by_id id (c ++ [d]) =
  match find_by_id id c with
  | Some x => Some x
  | None => if bool_decide (_id d = id) then Some d else None
  end.
Proof.
  unfold find_by_id. induction c as [|x c IH]; cbn [app List.find]; [done|].
  by destruct (bool_decide (_id x = id)).
Qed.











(** ** The expose flag *)










(** * Further properties of the code *)

(** ** The record store: create, read, delete *)

Lemma find_by_id_None id (c : collection) :
  find_by_id id c = None ↔ id ∉ _id <$> c.
Proof.
  unfold find_by_id. induction c as [|x c IH]; cbn [List.find fmap list_fmap].
  - split; [intros _; apply not_elem_of_nil | done].
  - rewrite not_elem_of_cons. destruct (bool_decide (_id x = id)) eqn:E.
    + apply bool_decide_eq_true in E. split; [done | intros [H _]; congruence].
    + apply bool_decide_eq_false in E. rewrite IH. split; [|tauto].
      intros H. split; [congruence | done].
Qed.

Lemma create_contact_Return contact now (contacts : collection) d contacts' :
  create_contact contact now contacts = (Return d, contacts') →
  d = Document (get_next_contact_id contacts)
        (<["updated_at" := VDate now]>
           (<["created_at" := VDate now]> (ContactCreate.model_dump contact))) ∧
  contacts' = contacts ++ [d] ∧ find_by_id (_id d) contacts = None.
Proof.
  unfold create_contact.
  destruct (match ContactCreate.email contact with Some _ => _ | None => _ end);
    [intros [=]|].
  remember (get_next_contact_id contacts) as id eqn:Hid.
  remember (<["updated_at" := VDate now]> _) as dict eqn:Hdict.
  unfold insert_one. cbn [_id].
  destruct (find_by_id id contacts) eqn:Hf; cbv beta iota; intros [= <- <-].
  done.
Qed.

(** A created contact can be read back under its id, with both timestamps
    at the time of creation and the fields of the candidate; the contacts
    stored before are read as before. *)
Theorem create_then_get contact now (contacts : collection) d contacts' :
  create_contact contact now contacts = (Return d, contacts') →
  get_contact (_id d) contacts' = Some d ∧
  (∀ id, id ≠ _id d → get_contact id contacts' = get_contact id contacts) ∧
  length contacts' = S (length contacts) ∧
  fields d !! "created_at" = Some (VDate now) ∧
  fields d !! "updated_at" = Some (VDate now) ∧
  ∀ k, k ≠ "created_at" → k ≠ "updated_at" →
       fields d !! k = ContactCreate.model_dump contact !! k.
Proof.
  intros (Hd & -> & Hnew)%create_contact_Return. unfold get_contact.
  split; [rewrite find_by_id_app, Hnew; by rewrite bool_decide_eq_true_2|].
  split.
  { intros id Hid. rewrite find_by_id_app. destruct (find_by_id id contacts);
      [done|]. by rewrite bool_decide_eq_false_2. }
  split; [rewrite length_app; cbn; lia|].
  rewrite Hd. cbn [fields].
  split; [by rewrite lookup_insert_ne, lookup_insert_eq|].
  split; [by rewrite lookup_insert_eq|].
  intros k Hc Hu. by rewrite !lookup_insert_ne.
Qed.

Lemma create_then_get_witness :
  ∃ d contacts',
    create_contact nobody 5 directory = (Return d, contacts') ∧
    get_contact (_id d) contacts' = Some d ∧
    (∀ id, id ≠ _id d → get_contact id contacts' = get_contact id directory) ∧
    length contacts' = S (length directory) ∧
    fields d !! "created_at" = Some (VDate 5) ∧
    fields d !! "updated_at" = Some (VDate 5) ∧
    ∀ k, k ≠ "created_at" → k ≠ "updated_at" →
         fields d !! k = ContactCreate.model_dump nobody !! k.
Proof.
  pose (r := create_contact nobody 5 directory).
  exists (match r.1 with Return d => d | _ => Document "" ∅ end), r.2.
  assert (create_contact nobody 5 directory =
            (Return (match r.1 with Return d => d | _ => Document "" ∅ end), r.2))
    as H by (vm_compute; reflexivity).
  split; [exact H|]. exact (create_then_get _ _ _ _ _ H).
Defined.

Lemma delete_one_spec id (c : collection) :
  NoDup (_id <$> c) →
  (delete_one id c).1 =
    match find_by_id id c with Some _ => 1 | None => 0 end ∧
  find_by_id id (delete_one id c).2 = None ∧
  (∀ id', id' ≠ id →
          find_by_id id' (delete_one id c).2 = find_by_id id' c) ∧
  length (delete_one id c).2 + (delete_one id c).1 = length c.
Proof.
  unfold find_by_id. induction c as [|x c IH]; intros Hnd; [done|].
  cbn [fmap list_fmap] in Hnd. apply NoDup_cons in Hnd as [Hx Hnd].
  cbn [delete_one List.find].
  destruct (bool_decide (_id x = id)) eqn:E.
  - cbn [fst snd length]. apply bool_decide_eq_true in E. subst id.
    split; [done|]. split; [by apply find_by_id_None|].
    split; [|lia]. intros id' Hid'. cbn [List.find].
    by rewrite bool_decide_eq_false_2.
  - destruct (IH Hnd) as (IH1 & IH2 & IH3 & IH4).
    destruct (delete_one id c) as [n c']. cbn [fst snd length List.find] in *.
    rewrite E. split; [done|]. split; [done|]. split; [|lia].
    intros id' Hid'. destruct (bool_decide (_id x = id')); [done|].
    by apply IH3.
Qed.

(** On a store with distinct ids, [delete_contact] answers true exactly
    when the id was stored; afterwards the id is not stored, every other
    contact is read as before, and the store holds one record fewer exactly
    when the answer is true. *)
Theorem delete_contact_removes id (contacts : collection) :
  NoDup (_id <$> contacts) →
  (delete_contact id contacts).1 = bool_decide (is_Some (get_contact id contacts)) ∧
  get_contact id (delete_contact id contacts).2 = None ∧
  (∀ id', id' ≠ id →
     get_contact id' (delete_contact id contacts).2 = get_contact id' contacts) ∧
  length (delete_contact id contacts).2 =
    length contacts - (if (delete_contact id contacts).1 then 1 else 0).
Proof.
  intros Hnd. destruct (delete_one_spec id contacts Hnd) as (H1 & H2 & H3 & H4).
  unfold delete_contact, get_contact.
  destruct (delete_one id contacts) as [n c']. cbn [fst snd] in *.
  split.
  { rewrite H1. destruct (find_by_id id contacts); [|done].
    symmetry. apply bool_decide_eq_true. by eexists. }
  split; [done|]. split; [done|].
  subst n. destruct (find_by_id id contacts);
    [rewrite bool_decide_eq_true_2 by lia | rewrite bool_decide_eq_false_2 by lia];
    cbn in *; lia.
Qed.

Lemma delete_contact_removes_witness :
  NoDup (_id <$> directory) ∧
  (delete_contact "0001" directory).1 =
    bool_decide (is_Some (get_contact "0001" directory)) ∧
  get_contact "0001" (delete_contact "0001" directory).2 = None ∧
  (∀ id', id' ≠ "0001" →
     get_contact id' (delete_contact "0001" directory).2 =
     get_contact id' directory) ∧
  length (delete_contact "0001" directory).2 =
    length directory - (if (delete_contact "0001" directory).1 then 1 else 0).
Proof.
  assert (NoDup (_id <$> directory)) as H
    by (apply (bool_decide_unpack _); by vm_compute).
  split; [exact H | exact (delete_contact_removes "0001" directory H)].
Defined.

Lemma update_one_set_ids id upd (c : collection) :
  _id <$> update_one_set id upd c = _id <$> c.
Proof.
  induction c as [|x c IH]; [done|]. cbn [update_one_set].
  destruct (bool_decide (_id x = id)); cbn [fmap list_fmap _id]; [done|].
  by rewrite IH.
Qed.

Lemma delete_one_ids id (c : collection) :
  sublist (_id <$> (delete_one id c).2) (_id <$> c).
Proof.
  induction c as [|x c IH]; [done|]. cbn [delete_one].
  destruct (bool_decide (_id x = id)).
  - cbn [snd fmap list_fmap]. by apply sublist_cons.
  - destruct (delete_one id c) as [n c']. cbn [snd fmap list_fmap] in *.
    by apply sublist_skip.
Qed.

(** The ids of the store stay pairwise distinct under creation, update and
    deletion, whether the operation succeeds or fails. *)
Theorem ids_stay_distinct contact partial id now (contacts : collection) :
  NoDup (_id <$> contacts) →
  NoDup (_id <$> (create_contact contact now contacts).2) ∧
  NoDup (_id <$> (update_contact id partial now contacts).2) ∧
  NoDup (_id <$> (delete_contact id contacts).2).
Proof.
  intros Hnd. split; [|split].
  - unfold create_contact.
    destruct (match ContactCreate.email contact with Some _ => _ | None => _ end);
      [done|].
    remember (get_next_contact_id contacts) as nid eqn:Hnid.
    remember (<["updated_at" := VDate now]> _) as dict eqn:Hdict.
    unfold insert_one. cbn [_id].
    destruct (find_by_id nid contacts) eqn:Hnew; cbn [snd]; [done|].
    rewrite fmap_app. apply NoDup_app. split; [done|].
    split; [|apply NoDup_singleton].
    intros x Hx ->%list_elem_of_singleton. by apply find_by_id_None in Hnew.
  - unfold update_contact. destruct (find_by_id id contacts); [|done].
    destruct (match ContactUpdate.attr _ with Some _ => _ | None => _ end);
      [done|].
    cbn [snd]. by rewrite update_one_set_ids.
  - unfold delete_contact. pose proof (delete_one_ids id contacts) as Hs.
    destruct (delete_one id contacts) as [n c']. cbn [snd] in *.
    by eapply sublist_NoDup.
Qed.

Lemma ids_stay_distinct_witness :
  NoDup (_id <$> directory) ∧
  NoDup (_id <$> (create_contact nobody 5 directory).2) ∧
  NoDup (_id <$> (update_contact "0002" (ContactUpdate.only_name "Rob") 5
                                 directory).2) ∧
  NoDup (_id <$> (delete_contact "0002" directory).2).
Proof.
  assert (NoDup (_id <$> directory)) as H
    by (apply (bool_decide_unpack _); by vm_compute).
  split; [exact H|].
  exact (ids_stay_distinct nobody (ContactUpdate.only_name "Rob") "0002" 5
           directory H).
Defined.
